(** * at::Device (aten/src/ATen/Device.h)

    A shallow embedding of the [Device] value type of ATen: a device type
    together with an optional device index, its three constructors, its
    comparison operators, its accessors and its index setter, followed by
    the properties established about them. *)

From Stdlib Require Import ZArith Bool List Lia.
From Stdlib Require Import Strings.String Strings.Ascii.
From Stdlib Require Import Numbers.DecimalString Numbers.DecimalPos.
Import ListNotations.

Local Open Scope string_scope.
Local Open Scope Z_scope.

(** ** Errors

    ATen/Error.h, which supplies the macros [AT_ERROR] and [AT_CHECK], lies
    outside this development.  The specification distinguishes two kinds of
    failure: [InvalidArgument] for the argument checks written in Device.h,
    and [ParseError] for a descriptor string outside the grammar.  A
    failure carries its message. *)

Inductive Error : Type :=
| InvalidArgument (msg : string)
| ParseError (msg : string).

Inductive result (A : Type) : Type :=
| OK (a : A)
| Err (e : Error).

Arguments OK {A} a.
Arguments Err {A} e.

Definition bind {A B : Type} (m : result A) (k : A -> result B) : result B :=
  match m with
  | OK a => k a
  | Err e => Err e
  end.

Notation "x <- m ;; k" := (bind m (fun x => k))
  (at level 61, m at next level, right associativity).
Notation "m ;;; k" := (bind m (fun _ => k))
  (at level 61, right associativity).

(** Modelled from the spec: the macro [AT_ERROR(parts...)] of ATen/Error.h
    raises unconditionally; the failure is an [InvalidArgument] whose
    message is the concatenation of [parts]. *)
Definition AT_ERROR {A : Type} (msg : string) : result A :=
  Err (InvalidArgument msg).

(** Modelled from the spec: the macro [AT_CHECK(cond, parts...)] of
    ATen/Error.h does nothing when [cond] holds and raises as [AT_ERROR]
    does when it does not. *)
Definition AT_CHECK (cond : bool) (msg : string) : result unit :=
  if cond then OK tt else AT_ERROR msg.

Definition is_invalid_argument {A : Type} (m : result A) : bool :=
  match m with
  | Err (InvalidArgument _) => true
  | _ => false
  end.

Definition is_parse_error {A : Type} (m : result A) : bool :=
  match m with
  | Err (ParseError _) => true
  | _ => false
  end.

(** ** int32_t

    The device index is an [int32_t].  It is carried as a [Z]; the code
    only stores and compares it, so no wrap-around arises.  The values an
    [int32_t] can take are those of [int32_range]. *)

Definition INT32_MIN : Z := - 2 ^ 31.
Definition INT32_MAX : Z := 2 ^ 31 - 1.

Definition int32_range (z : Z) : Prop := INT32_MIN <= z <= INT32_MAX.

(** Decimal rendering of an integer, as [operator<<] of a stream prints
    it: a leading minus sign for negative values, no leading zeros. *)
Definition string_of_int32 (z : Z) : string :=
  NilZero.string_of_int (Z.to_int z).

(** ** The device type *)

(** [enum class Type { CPU, CUDA }] *)
Inductive DeviceType : Type := CPU | CUDA.

Definition DeviceType_eqb (a b : DeviceType) : bool :=
  match a, b with
  | CPU, CPU => true
  | CUDA, CUDA => true
  | _, _ => false
  end.

(** ** The device *)

Record Device : Type := mkDevice {
  type_ : DeviceType;
  index_ : Z
}.

(** [Type type() const noexcept] *)
Definition type (d : Device) : DeviceType := type_ d.

(** [const int32_t& index() const noexcept] *)
Definition index (d : Device) : Z := index_ d.

(** [bool has_index() const noexcept { return index_ != -1; }] *)
Definition has_index (d : Device) : bool := negb (index_ d =? -1).

(** [bool is_cuda() const noexcept] *)
Definition is_cuda (d : Device) : bool := DeviceType_eqb (type_ d) CUDA.

(** [bool is_cpu() const noexcept] *)
Definition is_cpu (d : Device) : bool := DeviceType_eqb (type_ d) CPU.

(** [Device(Type type, int32_t index = -1)]: the member initialisers run
    first, then the two checks, the second reading [type_] through
    [is_cpu()]. *)
Definition Device_ctor (type : DeviceType) (index : Z) : result Device :=
  let this := mkDevice type index in
  AT_CHECK ((index =? -1) || (index >=? 0))
    ("Device index must be -1 or non-negative, got " ++ string_of_int32 index) ;;;
  AT_CHECK (negb (is_cpu this) || (index <=? 0))
    ("CPU device index must be -1 or zero, got " ++ string_of_int32 index) ;;;
  OK this.

(** The pairs the two checks of the constructor turn down, as one
    proposition. *)
Definition index_rejected (t : DeviceType) (i : Z) : Prop :=
  i < -1 \/ (t = CPU /\ i >= 1).

(** The same constructor with its index argument left to the default. *)
Definition Device_ctor_default (type : DeviceType) : result Device :=
  Device_ctor type (-1).

(** [bool operator==(const Device& other) const noexcept] *)
Definition Device_eq (this other : Device) : bool :=
  DeviceType_eqb (type_ this) (type_ other) && (index_ this =? index_ other).

(** [bool operator!=(const Device& other) const noexcept] *)
Definition Device_neq (this other : Device) : bool :=
  negb (Device_eq this other).

(** [void set_index(int32_t index) { index_ = index; }]: the device after
    the assignment. *)
Definition set_index (index : Z) (this : Device) : Device :=
  mkDevice (type_ this) index.

(** The two conditions the constructor checks, read on a device that
    already exists: first [index_ == -1 || index_ >= 0], then
    [!is_cpu() || index_ <= 0]. *)
Definition Device_invariant (d : Device) : bool :=
  ((index_ d =? -1) || (index_ d >=? 0)) &&
  (negb (is_cpu d) || (index_ d <=? 0)).

(** ** Construction from a backend

    [Backend], its constants [kCPU], [kSparseCPU], [kCUDA], [kSparseCUDA]
    and [toString] belong to ATen/ScalarType.h, which lies outside this
    development; they are taken as parameters, gathered in a class.  A
    [switch] needs its case labels to be pairwise distinct, which the facts
    about [backend_to_type] assume. *)

Class BackendEnum (Backend : Type) : Type := {
  Backend_eq_dec : forall a b : Backend, {a = b} + {a <> b};
  kCPU : Backend;
  kSparseCPU : Backend;
  kCUDA : Backend;
  kSparseCUDA : Backend;
  toString : Backend -> string
}.

Section BackendConstruction.

Context {Backend : Type} {backends : BackendEnum Backend}.

Definition is_backend (a b : Backend) : bool :=
  if Backend_eq_dec a b then true else false.

(** [static Type backend_to_type(Backend backend)] *)
Definition backend_to_type (backend : Backend) : result DeviceType :=
  if is_backend backend kCPU || is_backend backend kSparseCPU then
    OK CPU
  else if is_backend backend kCUDA || is_backend backend kSparseCUDA then
    OK CUDA
  else
    AT_ERROR ("Invalid backend " ++ toString backend ++
              " for Device construction").

(** [Device(Backend backend, int32_t index = -1)
      : Device(backend_to_type(backend), index) {}] *)
Definition Device_ctor_backend (backend : Backend) (index : Z)
  : result Device :=
  type <- backend_to_type backend ;;
  Device_ctor type index.

Definition Device_ctor_backend_default (backend : Backend) : result Device :=
  Device_ctor_backend backend (-1).

(** The backend constructor as the specification words it: a fixed
    lookup from backends to types, a failure naming the backend when the
    lookup finds nothing, and otherwise the type and index constructor. *)
Definition backend_table : list (Backend * DeviceType) :=
  [ (kCPU, CPU); (kSparseCPU, CPU); (kCUDA, CUDA); (kSparseCUDA, CUDA) ].

Fixpoint lookup_backend (b : Backend) (table : list (Backend * DeviceType))
  : option DeviceType :=
  match table with
  | [] => None
  | (k, t) :: rest => if is_backend b k then Some t else lookup_backend b rest
  end.

Definition Construct_backend_spec (backend : Backend) (index : Z)
  : result Device :=
  match lookup_backend backend backend_table with
  | None =>
      Err (InvalidArgument ("Invalid backend " ++ toString backend ++
                            " for Device construction"))
  | Some type => Device_ctor type index
  end.

End BackendConstruction.

(** ** Construction from a descriptor string, and formatting

    Device.h only announces [Device(const std::string&)] and the two
    [operator<<]; their bodies live in Device.cpp, outside this
    development. *)

(** [strip_prefix p s] is what is left of [s] after its prefix [p], when
    [s] starts with [p]; the comparison is case-sensitive. *)
Fixpoint strip_prefix (p s : string) : option string :=
  match p, s with
  | EmptyString, _ => Some s
  | String a p', String b s' =>
      if Ascii.eqb a b then strip_prefix p' s' else None
  | String _ _, EmptyString => None
  end.

(** Modelled from the spec: the type token of a descriptor string, missing
    with Device.cpp.  The token is the case-sensitive literal [cpu] or
    [cuda] at the start of the string; anything else is a [ParseError]. *)
Definition parse_type (device_string : string)
  : result (DeviceType * string) :=
  match strip_prefix "cpu" device_string with
  | Some rest => OK (CPU, rest)
  | None =>
      match strip_prefix "cuda" device_string with
      | Some rest => OK (CUDA, rest)
      | None =>
          Err (ParseError
                 "Expected 'cpu' or 'cuda' device type at start of device string")
      end
  end.

(** Modelled from the spec: the index token of a descriptor string, missing
    with Device.cpp.  The token is a base-10 non-negative integer: one or
    more decimal digits and nothing else, so neither a sign nor an empty
    token is accepted.  A value that does not fit the [int32_t] index is
    not a valid index either. *)
Definition parse_index (device_string index_string : string) : result Z :=
  let failure :=
    Err (ParseError ("Could not parse device index '" ++ index_string ++
                     "' in device string '" ++ device_string ++ "'")) in
  match NilZero.uint_of_string index_string with
  | Some digits =>
      let value := Z.of_N (N.of_uint digits) in
      if value <=? INT32_MAX then OK value else failure
  | None => failure
  end.

(** Modelled from the spec: the constructor [Device(const std::string&)],
    missing with Device.cpp.  The grammar is [<cpu|cuda>[:<index>]]: a
    type token, then either the end of the string, which leaves the index
    unspecified, or the separator [:] and an index token.  An unrecognised
    type token, a missing separator and an invalid index token are each a
    [ParseError]; a string within the grammar then behaves as the type and
    index constructor, whose checks apply. *)
Definition Device_ctor_string (device_string : string) : result Device :=
  parsed <- parse_type device_string ;;
  match snd parsed with
  | EmptyString => Device_ctor_default (fst parsed)
  | String separator index_string =>
      if Ascii.eqb separator ":" then
        index <- parse_index device_string index_string ;;
        Device_ctor (fst parsed) index
      else
        Err (ParseError
               "Expected ':' to separate device type from index in device string")
  end.

(** Modelled from the spec: [operator<<(std::ostream&, at::Device::Type)],
    missing with Device.cpp; the text written to the stream. *)
Definition format_Type (type : DeviceType) : string :=
  match type with
  | CPU => "cpu"
  | CUDA => "cuda"
  end.

(** Modelled from the spec: [operator<<(std::ostream&, const at::Device&)],
    missing with Device.cpp; the canonical rendering [<type>:<index>], or
    [<type>] alone when the index is unspecified. *)
Definition format_Device (device : Device) : string :=
  format_Type (type device) ++
  (if has_index device then ":" ++ string_of_int32 (index device) else "").

(** ** A concrete backend enumeration

    An instance of the parameters of the backend constructor, on which its
    facts are exercised: the four backends the [switch] names and one it
    does not. *)

Inductive SampleBackend : Type :=
| BackendCPU
| BackendCUDA
| BackendSparseCPU
| BackendSparseCUDA
| BackendUndefined.

Definition SampleBackend_eq_dec (a b : SampleBackend) : {a = b} + {a <> b}.
Proof. decide equality. Defined.

Definition SampleBackend_toString (b : SampleBackend) : string :=
  match b with
  | BackendCPU => "CPU"
  | BackendCUDA => "CUDA"
  | BackendSparseCPU => "SparseCPU"
  | BackendSparseCUDA => "SparseCUDA"
  | BackendUndefined => "UNKNOWN_BACKEND"
  end.

#[export] Instance SampleBackendEnum : BackendEnum SampleBackend := {|
  Backend_eq_dec := SampleBackend_eq_dec;
  kCPU := BackendCPU;
  kSparseCPU := BackendSparseCPU;
  kCUDA := BackendCUDA;
  kSparseCUDA := BackendSparseCUDA;
  toString := SampleBackend_toString
|}.

(** * Properties *)

(** ** The type and index constructor *)

Lemma DeviceType_eqb_eq (a b : DeviceType) :
  DeviceType_eqb a b = true <-> a = b.
Proof.
  destruct a, b; simpl; split; congruence.
Qed.

Lemma DeviceType_eqb_refl (a : DeviceType) : DeviceType_eqb a a = true.
Proof.
  now apply DeviceType_eqb_eq.
Qed.

Lemma Device_ctor_accepts (t : DeviceType) (i : Z) :
  ~ index_rejected t i -> Device_ctor t i = OK (mkDevice t i).
Proof.
  unfold index_rejected, Device_ctor, AT_CHECK, is_cpu; intros Hok; simpl.
  destruct (Z.eqb_spec i (-1)) as [-> | Hne]; simpl.
  - now destruct t.
  - destruct (Z.geb_spec i 0) as [Hge | Hlt]; simpl; [ | exfalso; lia ].
    destruct t; simpl; [ | reflexivity ].
    destruct (Z.leb_spec i 0) as [Hle | Hgt]; simpl; [ reflexivity | ].
    exfalso; apply Hok; right; split; [ reflexivity | lia ].
Qed.

Lemma Device_ctor_rejects (t : DeviceType) (i : Z) :
  index_rejected t i -> exists msg, Device_ctor t i = Err (InvalidArgument msg).
Proof.
  unfold index_rejected, Device_ctor, AT_CHECK, AT_ERROR, is_cpu; simpl.
  intros [Hneg | [-> Hpos]].
  - destruct (Z.eqb_spec i (-1)) as [Heq | _]; [ lia | ].
    destruct (Z.geb_spec i 0) as [Hge | _]; [ lia | ].
    simpl; eauto.
  - destruct (Z.eqb_spec i (-1)) as [Heq | _]; [ lia | ].
    destruct (Z.geb_spec i 0) as [_ | Hlt]; [ | lia ].
    destruct (Z.leb_spec i 0) as [Hle | _]; [ lia | ].
    simpl; eauto.
Qed.

Lemma index_rejected_dec (t : DeviceType) (i : Z) :
  index_rejected t i \/ ~ index_rejected t i.
Proof.
  unfold index_rejected.
  destruct (Z_lt_dec i (-1)); [ now left; left | ].
  destruct t.
  - destruct (Z_ge_dec i 1); [ now left; right | right; intuition lia ].
  - right; intros [H | [H _]]; [ lia | discriminate ].
Qed.

Lemma Device_ctor_inv (t : DeviceType) (i : Z) (d : Device) :
  Device_ctor t i = OK d -> d = mkDevice t i /\ ~ index_rejected t i.
Proof.
  intros Hc.
  destruct (index_rejected_dec t i) as [Hrej | Hok].
  - destruct (Device_ctor_rejects t i Hrej) as [msg Hmsg]; congruence.
  - rewrite (Device_ctor_accepts t i Hok) in Hc; split; congruence.
Qed.

Lemma Device_ctor_rejects_iff (t : DeviceType) (i : Z) :
  (exists msg, Device_ctor t i = Err (InvalidArgument msg)) <->
  index_rejected t i.
Proof.
  split; [ | apply Device_ctor_rejects ].
  intros [msg Hmsg].
  destruct (index_rejected_dec t i) as [Hrej | Hok]; [ assumption | ].
  rewrite (Device_ctor_accepts t i Hok) in Hmsg; discriminate.
Qed.

Lemma Device_ctor_accepts_iff (t : DeviceType) (i : Z) :
  (exists d, Device_ctor t i = OK d) <-> ~ index_rejected t i.
Proof.
  split.
  - intros [d Hd]; now apply Device_ctor_inv in Hd.
  - intros Hok; eexists; now apply Device_ctor_accepts.
Qed.

Example Device_ctor_cpu_one :
  Device_ctor CPU 1 =
  Err (InvalidArgument "CPU device index must be -1 or zero, got 1").
Proof. reflexivity. Qed.

Example Device_ctor_cuda_minus_two :
  Device_ctor CUDA (-2) =
  Err (InvalidArgument "Device index must be -1 or non-negative, got -2").
Proof. reflexivity. Qed.

(** C1: the type and index constructor raises InvalidArgument exactly when
    the index is below -1, or the type is CPU and the index is 1 or more;
    in every other case it returns a device. *)
Theorem Device_ctor_fails_iff (t : DeviceType) (i : Z) :
  ((exists msg, Device_ctor t i = Err (InvalidArgument msg)) <->
     (i < -1 \/ (t = CPU /\ i >= 1))) /\
  ((exists d, Device_ctor t i = OK d) <->
     ~ (i < -1 \/ (t = CPU /\ i >= 1))).
Proof.
  split.
  - apply Device_ctor_rejects_iff.
  - apply Device_ctor_accepts_iff.
Qed.

(** C5: for every type and index within the invariants the constructor
    returns a device whose accessors give back the type and the index
    supplied; with the index left out, the stored index is -1. *)
Theorem Device_ctor_valid_accessors (t : DeviceType) (i : Z)
  (Hindex : i = -1 \/ i >= 0)
  (Hcpu : t = CPU -> i = -1 \/ i = 0) :
  (exists d, Device_ctor t i = OK d /\ type d = t /\ index d = i) /\
  (exists d, Device_ctor_default t = OK d /\ type d = t /\ index d = -1).
Proof.
  split.
  - exists (mkDevice t i); split; [ | now split ].
    apply Device_ctor_accepts; unfold index_rejected.
    intros [Hlow | [Ht Hpos]]; [ lia | ].
    specialize (Hcpu Ht); lia.
  - exists (mkDevice t (-1)); split; [ | now split ].
    unfold Device_ctor_default; apply Device_ctor_accepts; unfold index_rejected.
    intros [Hlow | [_ Hpos]]; lia.
Qed.

Lemma Device_ctor_valid_accessors_witness :
  (0 = -1 \/ 0 >= 0) /\
  (CPU = CPU -> 0 = -1 \/ 0 = 0) /\
  (exists d, Device_ctor CPU 0 = OK d /\ type d = CPU /\ index d = 0) /\
  (exists d, Device_ctor_default CPU = OK d /\ type d = CPU /\ index d = -1).
Proof.
  split; [ right; lia | ].
  split; [ intros _; right; reflexivity | ].
  apply (Device_ctor_valid_accessors CPU 0);
    [ right; lia | intros _; right; reflexivity ].
Defined.

(** ** Comparison *)

Lemma Device_eq_true_iff (d1 d2 : Device) :
  Device_eq d1 d2 = true <-> type d1 = type d2 /\ index d1 = index d2.
Proof.
  unfold Device_eq, type, index.
  rewrite andb_true_iff, DeviceType_eqb_eq, Z.eqb_eq; reflexivity.
Qed.

(** C2: two devices compare equal exactly when their types are the same
    and their indices are the same; the index is not normalised, so the CPU
    device of index -1 and the CPU device of index 0 compare unequal. *)
Theorem Device_eq_strict :
  (forall d1 d2 : Device,
     Device_eq d1 d2 = true <-> type d1 = type d2 /\ index d1 = index d2) /\
  (exists a b : Device,
     Device_ctor CPU (-1) = OK a /\ Device_ctor CPU 0 = OK b /\
     Device_eq a b = false /\ Device_neq a b = true).
Proof.
  split.
  - exact Device_eq_true_iff.
  - exists (mkDevice CPU (-1)), (mkDevice CPU 0).
    repeat split; reflexivity.
Qed.

(** C10: the inequality operator is the negation of the equality operator,
    so of the two exactly one holds on any pair of devices. *)
Theorem Device_neq_negates_eq (d1 d2 : Device) :
  Device_neq d1 d2 = negb (Device_eq d1 d2) /\
  ((Device_eq d1 d2 = true /\ Device_neq d1 d2 = false) \/
   (Device_eq d1 d2 = false /\ Device_neq d1 d2 = true)).
Proof.
  unfold Device_neq; split; [ reflexivity | ].
  destruct (Device_eq d1 d2); simpl; [ left | right ]; split; reflexivity.
Qed.

(** ** Accessors and the setter *)

(** C6: set_index stores any index at all without a check: afterwards the
    index accessor returns it and the type is what it was, also for an
    index the constructor refuses, such as 5 on a CPU device or -3. *)
Theorem set_index_unchecked (d : Device) (i : Z) :
  index (set_index i d) = i /\
  type (set_index i d) = type d /\
  (exists cpu, Device_ctor CPU 0 = OK cpu /\
     index (set_index 5 cpu) = 5 /\ is_cpu (set_index 5 cpu) = true /\
     is_invalid_argument (Device_ctor CPU 5) = true) /\
  (index (set_index (-3) d) = -3 /\
     is_invalid_argument (Device_ctor (type d) (-3)) = true).
Proof.
  split; [ reflexivity | ].
  split; [ reflexivity | ].
  split.
  - exists (mkDevice CPU 0); repeat split; reflexivity.
  - split; [ reflexivity | ].
    destruct d as [[|] j]; reflexivity.
Qed.

(** C8: has_index is true exactly when the stored index is not -1; a
    device built with the index left out has no index, and a device built
    with an index of 0 or more has one. *)
Theorem has_index_iff_not_sentinel
  (d : Device) (t : DeviceType) (i : Z) (built : Device)
  (Hindex : i >= 0)
  (Hbuilt : Device_ctor t i = OK built) :
  (has_index d = true <-> index d <> -1) /\
  (exists d0, Device_ctor_default t = OK d0 /\ has_index d0 = false) /\
  has_index built = true.
Proof.
  split; [ | split ].
  - unfold has_index, index.
    rewrite negb_true_iff, Z.eqb_neq; reflexivity.
  - exists (mkDevice t (-1)); split; [ | reflexivity ].
    now destruct t.
  - apply Device_ctor_inv in Hbuilt; destruct Hbuilt as [-> _].
    unfold has_index; simpl.
    apply negb_true_iff, Z.eqb_neq; lia.
Qed.

Lemma has_index_iff_not_sentinel_witness :
  4 >= 0 /\
  Device_ctor CUDA 4 = OK (mkDevice CUDA 4) /\
  (has_index (mkDevice CPU (-1)) = true <-> index (mkDevice CPU (-1)) <> -1) /\
  (exists d0, Device_ctor_default CUDA = OK d0 /\ has_index d0 = false) /\
  has_index (mkDevice CUDA 4) = true.
Proof.
  split; [ lia | ].
  split; [ reflexivity | ].
  apply (has_index_iff_not_sentinel (mkDevice CPU (-1)) CUDA 4 (mkDevice CUDA 4));
    [ lia | reflexivity ].
Defined.

(** ** The backend mapping and the backend constructor *)

Section BackendFacts.

Context {Backend : Type} {backends : BackendEnum Backend}.

Hypothesis labels_distinct : NoDup [kCPU; kSparseCPU; kCUDA; kSparseCUDA].

Lemma is_backend_true_iff (a b : Backend) : is_backend a b = true <-> a = b.
Proof.
  unfold is_backend; destruct (Backend_eq_dec a b); split; congruence.
Qed.

Lemma is_backend_false_iff (a b : Backend) : is_backend a b = false <-> a <> b.
Proof.
  unfold is_backend; destruct (Backend_eq_dec a b); split; congruence.
Qed.

Lemma labels_apart :
  kCUDA <> kCPU /\ kCUDA <> kSparseCPU /\
  kSparseCUDA <> kCPU /\ kSparseCUDA <> kSparseCPU.
Proof.
  inversion labels_distinct as [ | ? ? Hcpu Hrest ]; subst.
  inversion Hrest as [ | ? ? Hsparse _ ]; subst.
  simpl in Hcpu, Hsparse.
  repeat split; intros Heq; intuition congruence.
Qed.

(** C4: the backend mapping sends the CPU backends, dense and sparse, to
    the CPU type and the CUDA backends, dense and sparse, to the CUDA type;
    on any other backend it raises InvalidArgument with a message that
    names the backend. *)
Theorem backend_to_type_mapping (b : Backend) :
  (backend_to_type b = OK CPU <-> b = kCPU \/ b = kSparseCPU) /\
  (backend_to_type b = OK CUDA <-> b = kCUDA \/ b = kSparseCUDA) /\
  (backend_to_type b =
     Err (InvalidArgument
            ("Invalid backend " ++ toString b ++ " for Device construction"))
   <-> b <> kCPU /\ b <> kSparseCPU /\ b <> kCUDA /\ b <> kSparseCUDA).
Proof.
  destruct labels_apart as (H1 & H2 & H3 & H4).
  unfold backend_to_type, AT_ERROR.
  destruct (is_backend b kCPU) eqn:Ecpu;
    destruct (is_backend b kSparseCPU) eqn:Escpu;
    destruct (is_backend b kCUDA) eqn:Ecuda;
    destruct (is_backend b kSparseCUDA) eqn:Escuda;
    simpl;
    repeat match goal with
    | H : is_backend _ _ = true |- _ => apply is_backend_true_iff in H
    | H : is_backend _ _ = false |- _ => apply is_backend_false_iff in H
    end;
    repeat split; intros; try discriminate; try congruence; try tauto;
    intuition congruence.
Qed.

(** C7: the backend constructor is the type and index constructor applied
    to the mapped type: when the backend maps to a type the two give the
    same result, so the index is checked in the same way, and when it does
    not the failure of the mapping is the result. *)
Theorem Device_ctor_backend_delegates (b : Backend) (i : Z) :
  match backend_to_type b with
  | OK t =>
      Device_ctor_backend b i = Device_ctor t i /\
      ((exists msg, Device_ctor_backend b i = Err (InvalidArgument msg)) <->
         (i < -1 \/ (t = CPU /\ i >= 1)))
  | Err e => Device_ctor_backend b i = Err e
  end /\
  Device_ctor_backend b i = Construct_backend_spec b i.
Proof.
  split.
  - unfold Device_ctor_backend.
    destruct (backend_to_type b) as [t | e]; simpl; [ | reflexivity ].
    split; [ reflexivity | apply Device_ctor_rejects_iff ].
  - unfold Device_ctor_backend, Construct_backend_spec, backend_table,
      backend_to_type, AT_ERROR.
    simpl lookup_backend.
    destruct (is_backend b kCPU); [ reflexivity | ].
    destruct (is_backend b kSparseCPU); [ reflexivity | ].
    destruct (is_backend b kCUDA); [ reflexivity | ].
    destruct (is_backend b kSparseCUDA); reflexivity.
Qed.

End BackendFacts.

Lemma backend_to_type_mapping_witness :
  NoDup [BackendCPU; BackendSparseCPU; BackendCUDA; BackendSparseCUDA] /\
  (backend_to_type BackendUndefined = OK CPU <->
     BackendUndefined = BackendCPU \/ BackendUndefined = BackendSparseCPU) /\
  (backend_to_type BackendUndefined = OK CUDA <->
     BackendUndefined = BackendCUDA \/ BackendUndefined = BackendSparseCUDA) /\
  (backend_to_type BackendUndefined =
     Err (InvalidArgument
            ("Invalid backend " ++ SampleBackend_toString BackendUndefined ++
             " for Device construction"))
   <-> BackendUndefined <> BackendCPU /\ BackendUndefined <> BackendSparseCPU /\
       BackendUndefined <> BackendCUDA /\ BackendUndefined <> BackendSparseCUDA).
Proof.
  assert (Hdistinct :
            NoDup [BackendCPU; BackendSparseCPU; BackendCUDA; BackendSparseCUDA]).
  { repeat constructor; simpl; intuition discriminate. }
  split; [ exact Hdistinct | ].
  exact (backend_to_type_mapping (backends := SampleBackendEnum)
           Hdistinct BackendUndefined).
Defined.

Example Device_ctor_backend_sparse_cuda :
  Device_ctor_backend BackendSparseCUDA 4 = OK (mkDevice CUDA 4).
Proof. reflexivity. Qed.

Example Device_ctor_backend_sparse_cpu_one :
  Device_ctor_backend BackendSparseCPU 1 = Device_ctor CPU 1.
Proof. reflexivity. Qed.

Example Device_ctor_backend_unmapped :
  Device_ctor_backend_default BackendUndefined =
  Err (InvalidArgument
         "Invalid backend UNKNOWN_BACKEND for Device construction").
Proof. reflexivity. Qed.

(** ** Descriptor strings *)

Example format_Device_examples :
  format_Device (mkDevice CUDA 12) = "cuda:12" /\
  format_Device (mkDevice CPU 0) = "cpu:0" /\
  format_Device (mkDevice CUDA (-1)) = "cuda".
Proof. repeat split; reflexivity. Qed.

Example Device_ctor_string_outside_grammar :
  is_parse_error (Device_ctor_string "") = true /\
  is_parse_error (Device_ctor_string "CPU") = true /\
  is_parse_error (Device_ctor_string "cuda1") = true /\
  is_parse_error (Device_ctor_string "cuda:x") = true /\
  is_parse_error (Device_ctor_string "cuda:2147483648") = true.
Proof. repeat split; reflexivity. Qed.

Lemma parse_index_of_decimal (device_string : string) (i : Z) :
  0 <= i <= INT32_MAX ->
  parse_index device_string (string_of_int32 i) = OK i.
Proof.
  intros [Hlo Hhi].
  destruct i as [ | p | p ]; [ reflexivity | | lia ].
  unfold parse_index, string_of_int32; simpl Z.to_int; simpl NilZero.string_of_int.
  rewrite NilZero.usu by apply DecimalPos.Unsigned.to_uint_nonnil.
  unfold N.of_uint; rewrite DecimalPos.Unsigned.of_to; simpl Z.of_N.
  destruct (Z.leb_spec (Z.pos p) INT32_MAX); [ reflexivity | lia ].
Qed.

Lemma parse_index_range (device_string index_string : string) (i : Z) :
  parse_index device_string index_string = OK i -> 0 <= i <= INT32_MAX.
Proof.
  unfold parse_index.
  destruct (NilZero.uint_of_string index_string) as [digits | ]; [ | discriminate ].
  destruct (Z.leb_spec (Z.of_N (N.of_uint digits)) INT32_MAX); [ | discriminate ].
  intros [= <-]; lia.
Qed.

Lemma Device_ctor_string_inv (s : string) (d : Device) :
  Device_ctor_string s = OK d ->
  ~ index_rejected (type d) (index d) /\ index d <= INT32_MAX.
Proof.
  unfold Device_ctor_string.
  destruct (parse_type s) as [[t rest] | e]; simpl; [ | discriminate ].
  destruct rest as [ | separator index_string ].
  - unfold Device_ctor_default; intros Hc.
    apply Device_ctor_inv in Hc; destruct Hc as [-> Hok].
    split; [ exact Hok | simpl; unfold INT32_MAX; lia ].
  - destruct (Ascii.eqb separator ":"); [ | discriminate ].
    destruct (parse_index s index_string) as [i | e] eqn:Hidx; simpl;
      [ | discriminate ].
    intros Hc; apply Device_ctor_inv in Hc; destruct Hc as [-> Hok].
    split; [ exact Hok | apply parse_index_range in Hidx; simpl; lia ].
Qed.

(** A device read from a descriptor string has an index an [int32_t] can
    hold. *)
Lemma Device_ctor_string_int32 (s : string) (d : Device) :
  Device_ctor_string s = OK d -> int32_range (index d).
Proof.
  intros Hc; apply Device_ctor_string_inv in Hc; destruct Hc as [Hok Hmax].
  unfold index_rejected in Hok; unfold int32_range, INT32_MIN; lia.
Qed.

Lemma Device_ctor_string_format (t : DeviceType) (i : Z) :
  ~ index_rejected t i -> i <= INT32_MAX ->
  Device_ctor_string (format_Device (mkDevice t i)) = OK (mkDevice t i).
Proof.
  intros Hok Hmax.
  unfold format_Device, has_index; simpl index_; simpl type.
  destruct (Z.eqb_spec i (-1)) as [-> | Hne]; simpl negb; cbv iota.
  - now destruct t.
  - assert (Hrange : 0 <= i <= INT32_MAX).
    { unfold index_rejected in Hok; lia. }
    unfold Device_ctor_string.
    destruct t; simpl;
      rewrite (parse_index_of_decimal _ i Hrange); simpl;
      now apply Device_ctor_accepts.
Qed.

(** C3: a device obtained from a descriptor string is obtained again, up to
    the equality operator, from its own formatted rendering. *)
Theorem format_then_parse_roundtrip (s : string) (d : Device)
  (Hparsed : Device_ctor_string s = OK d) :
  exists d', Device_ctor_string (format_Device d) = OK d' /\
             Device_eq d' d = true.
Proof.
  apply Device_ctor_string_inv in Hparsed; destruct Hparsed as [Hok Hmax].
  exists d; split.
  - destruct d as [t i]; now apply Device_ctor_string_format.
  - apply Device_eq_true_iff; now split.
Qed.

Lemma format_then_parse_roundtrip_witness :
  Device_ctor_string "cuda:3" = OK (mkDevice CUDA 3) /\
  exists d', Device_ctor_string (format_Device (mkDevice CUDA 3)) = OK d' /\
             Device_eq d' (mkDevice CUDA 3) = true.
Proof.
  split; [ reflexivity | ].
  apply (format_then_parse_roundtrip "cuda:3" (mkDevice CUDA 3)); reflexivity.
Defined.

(** C9: the descriptor-string constructor on five strings: [cuda:3] is the
    CUDA device of index 3, [cpu] is the CPU device of index -1, [gpu:0]
    is a ParseError, [cpu:2] is an InvalidArgument and [cuda:-1] is a
    ParseError. *)
Theorem Device_ctor_string_examples :
  Device_ctor_string "cuda:3" = OK (mkDevice CUDA 3) /\
  Device_ctor_string "cpu" = OK (mkDevice CPU (-1)) /\
  is_parse_error (Device_ctor_string "gpu:0") = true /\
  is_invalid_argument (Device_ctor_string "cpu:2") = true /\
  is_parse_error (Device_ctor_string "cuda:-1") = true.
Proof.
  repeat split; reflexivity.
Qed.

(** * Further properties of Device.h *)

(** ** The type predicates *)

(** X1: is_cpu and is_cuda split the devices in two: is_cuda is the
    negation of is_cpu, is_cpu holds exactly on the devices of type CPU
    and is_cuda exactly on those of type CUDA. *)
Theorem is_cpu_is_cuda_complementary (d : Device) :
  is_cuda d = negb (is_cpu d) /\
  (is_cpu d = true <-> type d = CPU) /\
  (is_cuda d = true <-> type d = CUDA).
Proof.
  unfold is_cuda, is_cpu, type.
  split; [ now destruct (type_ d) | ].
  split; apply DeviceType_eqb_eq.
Qed.

(** ** The comparison operators *)

Lemma Device_eq_leibniz (d1 d2 : Device) : Device_eq d1 d2 = true <-> d1 = d2.
Proof.
  rewrite Device_eq_true_iff; unfold type, index.
  destruct d1 as [t1 i1], d2 as [t2 i2]; simpl.
  split; [ intros [-> ->]; reflexivity | intros [= -> ->]; now split ].
Qed.

Lemma Device_eq_sym (d1 d2 : Device) : Device_eq d1 d2 = Device_eq d2 d1.
Proof.
  unfold Device_eq; rewrite (Z.eqb_sym (index_ d1)).
  now destruct (type_ d1), (type_ d2).
Qed.

(** X2: the equality operator is an equivalence on devices, reflexive,
    symmetric and transitive, and it holds of two devices exactly when
    they are the same value. *)
Theorem Device_eq_equivalence (d1 d2 d3 : Device) :
  Device_eq d1 d1 = true /\
  Device_eq d1 d2 = Device_eq d2 d1 /\
  implb (Device_eq d1 d2 && Device_eq d2 d3) (Device_eq d1 d3) = true /\
  (Device_eq d1 d2 = true <-> d1 = d2).
Proof.
  split; [ now apply Device_eq_leibniz | ].
  split; [ apply Device_eq_sym | ].
  split; [ | apply Device_eq_leibniz ].
  destruct (Device_eq d1 d2) eqn:E12; [ | reflexivity ].
  destruct (Device_eq d2 d3) eqn:E23; [ | reflexivity ].
  apply Device_eq_leibniz in E12, E23; subst; simpl.
  now apply Device_eq_leibniz.
Qed.

(** X3: the inequality operator is true exactly when the type or the index
    of the two devices differs; no device differs from itself, and the
    operator does not depend on the order of its operands. *)
Theorem Device_neq_differs (d1 d2 : Device) :
  (Device_neq d1 d2 = true <-> type d1 <> type d2 \/ index d1 <> index d2) /\
  Device_neq d1 d1 = false /\
  Device_neq d1 d2 = Device_neq d2 d1.
Proof.
  unfold Device_neq; split; [ | split ].
  - rewrite negb_true_iff; unfold Device_eq, type, index.
    rewrite andb_false_iff, Z.eqb_neq.
    split; (intros [Ht | Hi]; [ left | now right ]).
    + intros Heq; apply DeviceType_eqb_eq in Heq; congruence.
    + destruct (DeviceType_eqb (type_ d1) (type_ d2)) eqn:E; [ | reflexivity ].
      apply DeviceType_eqb_eq in E; contradiction.
  - apply negb_false_iff; now apply Device_eq_leibniz.
  - now rewrite Device_eq_sym.
Qed.

(** X10: two devices that were both constructed compare equal exactly
    when they were constructed from the same type and the same index. *)
Theorem Device_ctor_eq_iff_args
  (t1 t2 : DeviceType) (i1 i2 : Z) (d1 d2 : Device)
  (Hfirst : Device_ctor t1 i1 = OK d1)
  (Hsecond : Device_ctor t2 i2 = OK d2) :
  Device_eq d1 d2 = true <-> t1 = t2 /\ i1 = i2.
Proof.
  apply Device_ctor_inv in Hfirst, Hsecond.
  destruct Hfirst as [-> _], Hsecond as [-> _].
  now rewrite Device_eq_true_iff.
Qed.

Lemma Device_ctor_eq_iff_args_witness :
  Device_ctor CUDA 1 = OK (mkDevice CUDA 1) /\
  Device_ctor CUDA 2 = OK (mkDevice CUDA 2) /\
  (Device_eq (mkDevice CUDA 1) (mkDevice CUDA 2) = true <->
     CUDA = CUDA /\ 1 = 2).
Proof.
  split; [ reflexivity | ].
  split; [ reflexivity | ].
  apply (Device_ctor_eq_iff_args CUDA CUDA 1 2); reflexivity.
Defined.

(** ** What construction guarantees *)

Lemma Device_invariant_iff (d : Device) :
  Device_invariant d = true <-> ~ index_rejected (type d) (index d).
Proof.
  unfold Device_invariant, index_rejected, is_cpu, type, index.
  rewrite andb_true_iff, !orb_true_iff, negb_true_iff, Z.eqb_eq, Z.geb_le,
    Z.leb_le.
  destruct (type_ d); simpl; split.
  - intros [H1 [H2 | H2]] [H3 | [_ H3]]; try discriminate; lia.
  - intros H; split; [ | right ].
    + destruct (Z.eq_dec (index_ d) (-1)); [ now left | right ].
      destruct (Z_lt_dec (index_ d) (-1)); [ exfalso; apply H; now left | lia ].
    + destruct (Z_ge_dec (index_ d) 1); [ exfalso; apply H; now right | lia ].
  - intros [H1 _] [H3 | [H3 _]]; [ lia | discriminate ].
  - intros H; split; [ | now left ].
    destruct (Z.eq_dec (index_ d) (-1)); [ now left | right ].
    destruct (Z_lt_dec (index_ d) (-1)); [ exfalso; apply H; now left | lia ].
Qed.

(** X4: a device the constructor returns passes both of its checks: its
    index is -1 or more, and when it is a CPU device that has an index,
    that index is 0. *)
Theorem Device_ctor_establishes_invariant
  (t : DeviceType) (i : Z) (d : Device)
  (Hbuilt : Device_ctor t i = OK d) :
  Device_invariant d = true /\
  index d >= -1 /\
  (is_cpu d = false \/ has_index d = false \/ index d = 0).
Proof.
  apply Device_ctor_inv in Hbuilt; destruct Hbuilt as [-> Hok].
  split; [ now apply Device_invariant_iff | ].
  unfold index_rejected in Hok; unfold is_cpu, has_index, index; simpl.
  split; [ lia | ].
  destruct t; simpl; [ | now left ].
  right.
  destruct (Z.eqb_spec i (-1)); [ now left | right ].
  destruct (Z_ge_dec i 1); [ exfalso; apply Hok; now right | lia ].
Qed.

Lemma Device_ctor_establishes_invariant_witness :
  Device_ctor CPU 0 = OK (mkDevice CPU 0) /\
  Device_invariant (mkDevice CPU 0) = true /\
  index (mkDevice CPU 0) >= -1 /\
  (is_cpu (mkDevice CPU 0) = false \/ has_index (mkDevice CPU 0) = false \/
   index (mkDevice CPU 0) = 0).
Proof.
  split; [ reflexivity | ].
  apply (Device_ctor_establishes_invariant CPU 0); reflexivity.
Defined.

(** X5: when the constructor refuses its arguments, the message tells
    which check failed and ends with the index it was given: the first
    check for an index below -1, whatever the type, the second for a CPU
    device with an index of 1 or more. *)
Theorem Device_ctor_failure_message (t : DeviceType) (i : Z)
  (Hrejected : i < -1 \/ (t = CPU /\ i >= 1)) :
  Device_ctor t i =
  Err (InvalidArgument
         ((if i <? -1
           then "Device index must be -1 or non-negative, got "
           else "CPU device index must be -1 or zero, got ")
          ++ string_of_int32 i)).
Proof.
  unfold Device_ctor, AT_CHECK, AT_ERROR, is_cpu; simpl.
  destruct Hrejected as [Hlow | [-> Hhigh]].
  - destruct (Z.ltb_spec i (-1)); [ | lia ].
    destruct (Z.eqb_spec i (-1)); [ lia | ].
    destruct (Z.geb_spec i 0); [ lia | reflexivity ].
  - destruct (Z.ltb_spec i (-1)); [ lia | ].
    destruct (Z.eqb_spec i (-1)); [ lia | ].
    destruct (Z.geb_spec i 0); [ | lia ].
    destruct (Z.leb_spec i 0); [ lia | reflexivity ].
Qed.

Lemma Device_ctor_failure_message_witness :
  (7 < -1 \/ (CPU = CPU /\ 7 >= 1)) /\
  Device_ctor CPU 7 =
  Err (InvalidArgument "CPU device index must be -1 or zero, got 7").
Proof.
  split; [ right; split; [ reflexivity | lia ] | ].
  apply (Device_ctor_failure_message CPU 7).
  right; split; [ reflexivity | lia ].
Defined.

(** ** The setter *)

(** X6: of two calls of set_index the later one wins, storing the index a
    device already has changes nothing, and after a call has_index tells
    whether the index stored was other than -1 while is_cpu and is_cuda
    answer as before. *)
Theorem set_index_compose (d : Device) (i j : Z) :
  set_index j (set_index i d) = set_index j d /\
  set_index (index d) d = d /\
  has_index (set_index i d) = negb (i =? -1) /\
  is_cpu (set_index i d) = is_cpu d /\
  is_cuda (set_index i d) = is_cuda d.
Proof.
  repeat split; try reflexivity.
  now destruct d.
Qed.

(** X7: set_index leaves a device that passes the checks of the constructor
    exactly when the constructor accepts the type of the device with the
    new index, and the constructor then returns that very device; it
    leaves one that fails them exactly when the constructor raises. *)
Theorem set_index_agrees_with_ctor (d : Device) (i : Z) :
  (Device_invariant (set_index i d) = true <->
     Device_ctor (type d) i = OK (set_index i d)) /\
  (Device_invariant (set_index i d) = false <->
     exists msg, Device_ctor (type d) i = Err (InvalidArgument msg)).
Proof.
  pose proof (Device_invariant_iff (set_index i d)) as Hinv.
  change (type (set_index i d)) with (type d) in Hinv.
  change (index (set_index i d)) with i in Hinv.
  split.
  - rewrite Hinv; split.
    + apply Device_ctor_accepts.
    + intros Hc; now apply Device_ctor_inv in Hc.
  - rewrite Device_ctor_rejects_iff.
    destruct (Device_invariant (set_index i d)); split; intros H.
    + discriminate.
    + exfalso; now apply Hinv.
    + destruct (index_rejected_dec (type d) i) as [Hrej | Hok];
        [ assumption | apply Hinv in Hok; discriminate ].
    + reflexivity.
Qed.

(** ** The backend constructor *)

Section BackendConstructorFacts.

Context {Backend : Type} {backends : BackendEnum Backend}.

Hypothesis labels_distinct : NoDup [kCPU; kSparseCPU; kCUDA; kSparseCUDA].

Lemma backend_to_type_cpu (b : Backend) :
  b = kCPU \/ b = kSparseCPU -> backend_to_type b = OK CPU.
Proof.
  intros Hb; unfold backend_to_type.
  destruct Hb as [-> | ->].
  - now rewrite (proj2 (is_backend_true_iff kCPU kCPU) eq_refl).
  - rewrite (proj2 (is_backend_true_iff kSparseCPU kSparseCPU) eq_refl).
    now rewrite orb_true_r.
Qed.

Lemma backend_to_type_cuda (b : Backend) :
  b = kCUDA \/ b = kSparseCUDA -> backend_to_type b = OK CUDA.
Proof.
  destruct (labels_apart labels_distinct) as (H1 & H2 & H3 & H4).
  intros Hb; unfold backend_to_type.
  destruct Hb as [-> | ->].
  - rewrite (proj2 (is_backend_false_iff kCUDA kCPU) H1).
    rewrite (proj2 (is_backend_false_iff kCUDA kSparseCPU) H2).
    now rewrite (proj2 (is_backend_true_iff kCUDA kCUDA) eq_refl).
  - rewrite (proj2 (is_backend_false_iff kSparseCUDA kCPU) H3).
    rewrite (proj2 (is_backend_false_iff kSparseCUDA kSparseCPU) H4).
    rewrite (proj2 (is_backend_true_iff kSparseCUDA kSparseCUDA) eq_refl).
    now rewrite orb_true_r.
Qed.

Lemma backend_to_type_ok_inv (b : Backend) (t : DeviceType) :
  backend_to_type b = OK t ->
  (t = CPU /\ (b = kCPU \/ b = kSparseCPU)) \/
  (t = CUDA /\ (b = kCUDA \/ b = kSparseCUDA)).
Proof.
  unfold backend_to_type, AT_ERROR.
  destruct (is_backend b kCPU) eqn:E1; simpl.
  { apply is_backend_true_iff in E1; intros [= <-]; left; auto. }
  destruct (is_backend b kSparseCPU) eqn:E2; simpl.
  { apply is_backend_true_iff in E2; intros [= <-]; left; auto. }
  destruct (is_backend b kCUDA) eqn:E3; simpl.
  { apply is_backend_true_iff in E3; intros [= <-]; right; auto. }
  destruct (is_backend b kSparseCUDA) eqn:E4; simpl.
  { apply is_backend_true_iff in E4; intros [= <-]; right; auto. }
  discriminate.
Qed.

(** X8: the backend constructor returns a device in two cases only: a CPU
    backend, dense or sparse, with index -1 or 0, which gives the CPU
    device of that index, and a CUDA backend, dense or sparse, with an
    index of -1 or more, which gives the CUDA device of that index. *)
Theorem Device_ctor_backend_ok_iff (b : Backend) (i : Z) (d : Device) :
  Device_ctor_backend b i = OK d <->
  ((b = kCPU \/ b = kSparseCPU) /\ (i = -1 \/ i = 0) /\ d = mkDevice CPU i) \/
  ((b = kCUDA \/ b = kSparseCUDA) /\ i >= -1 /\ d = mkDevice CUDA i).
Proof.
  unfold Device_ctor_backend; split.
  - destruct (backend_to_type b) as [t | e] eqn:Hmap; simpl; [ | discriminate ].
    intros Hc; apply Device_ctor_inv in Hc; destruct Hc as [-> Hok].
    unfold index_rejected in Hok.
    apply backend_to_type_ok_inv in Hmap.
    destruct Hmap as [[-> Hb] | [-> Hb]]; [ left | right ];
      (split; [ exact Hb | split; [ | reflexivity ] ]).
    + destruct (Z_ge_dec i 1); [ exfalso; apply Hok; now right | lia ].
    + lia.
  - intros [(Hb & Hi & ->) | (Hb & Hi & ->)].
    + rewrite (backend_to_type_cpu b Hb); simpl.
      apply Device_ctor_accepts; unfold index_rejected; lia.
    + rewrite (backend_to_type_cuda b Hb); simpl.
      apply Device_ctor_accepts; unfold index_rejected.
      intros [Hlow | [Ht _]]; [ lia | discriminate ].
Qed.

(** X11: a device does not record whether its backend was sparse: with the
    same index, the sparse CPU backend and the dense one give the same
    result, and so do the sparse and the dense CUDA backends. *)
Theorem Device_ctor_backend_sparse_as_dense (i : Z) :
  Device_ctor_backend kSparseCPU i = Device_ctor_backend kCPU i /\
  Device_ctor_backend kSparseCUDA i = Device_ctor_backend kCUDA i.
Proof.
  unfold Device_ctor_backend; split.
  - rewrite !backend_to_type_cpu by auto; reflexivity.
  - rewrite !backend_to_type_cuda by auto; reflexivity.
Qed.

End BackendConstructorFacts.

Lemma sample_labels_distinct :
  NoDup [BackendCPU; BackendSparseCPU; BackendCUDA; BackendSparseCUDA].
Proof.
  repeat constructor; simpl; intuition discriminate.
Defined.

Lemma Device_ctor_backend_ok_iff_witness :
  NoDup [BackendCPU; BackendSparseCPU; BackendCUDA; BackendSparseCUDA] /\
  (Device_ctor_backend BackendSparseCUDA 4 = OK (mkDevice CUDA 4) <->
   ((BackendSparseCUDA = BackendCPU \/ BackendSparseCUDA = BackendSparseCPU) /\
    (4 = -1 \/ 4 = 0) /\ mkDevice CUDA 4 = mkDevice CPU 4) \/
   ((BackendSparseCUDA = BackendCUDA \/ BackendSparseCUDA = BackendSparseCUDA) /\
    4 >= -1 /\ mkDevice CUDA 4 = mkDevice CUDA 4)).
Proof.
  split; [ exact sample_labels_distinct | ].
  exact (Device_ctor_backend_ok_iff (backends := SampleBackendEnum)
           sample_labels_distinct BackendSparseCUDA 4 (mkDevice CUDA 4)).
Defined.

Lemma Device_ctor_backend_sparse_as_dense_witness :
  NoDup [BackendCPU; BackendSparseCPU; BackendCUDA; BackendSparseCUDA] /\
  Device_ctor_backend BackendSparseCPU 2 = Device_ctor_backend BackendCPU 2 /\
  Device_ctor_backend BackendSparseCUDA 2 = Device_ctor_backend BackendCUDA 2.
Proof.
  split; [ exact sample_labels_distinct | ].
  exact (Device_ctor_backend_sparse_as_dense (backends := SampleBackendEnum)
           sample_labels_distinct 2).
Defined.

(** X9: for a backend that is none of the four the mapping knows, the
    backend constructor raises the failure of the mapping, which names the
    backend, whatever the index: the index is not looked at, not even one
    the type and index constructor would refuse. *)
Theorem Device_ctor_backend_unmapped_first
  {Backend : Type} {backends : BackendEnum Backend} (b : Backend) (i : Z)
  (Hunmapped : b <> kCPU /\ b <> kSparseCPU /\ b <> kCUDA /\ b <> kSparseCUDA) :
  Device_ctor_backend b i =
  Err (InvalidArgument
         ("Invalid backend " ++ toString b ++ " for Device construction")).
Proof.
  destruct Hunmapped as (H1 & H2 & H3 & H4).
  unfold Device_ctor_backend, backend_to_type, AT_ERROR.
  rewrite (proj2 (is_backend_false_iff b kCPU) H1).
  rewrite (proj2 (is_backend_false_iff b kSparseCPU) H2).
  rewrite (proj2 (is_backend_false_iff b kCUDA) H3).
  rewrite (proj2 (is_backend_false_iff b kSparseCUDA) H4).
  reflexivity.
Qed.

Lemma Device_ctor_backend_unmapped_first_witness :
  (BackendUndefined <> BackendCPU /\ BackendUndefined <> BackendSparseCPU /\
   BackendUndefined <> BackendCUDA /\ BackendUndefined <> BackendSparseCUDA) /\
  Device_ctor_backend BackendUndefined (-5) =
  Err (InvalidArgument
         "Invalid backend UNKNOWN_BACKEND for Device construction").
Proof.
  assert (Hunmapped :
            BackendUndefined <> BackendCPU /\
            BackendUndefined <> BackendSparseCPU /\
            BackendUndefined <> BackendCUDA /\
            BackendUndefined <> BackendSparseCUDA).
  { repeat split; discriminate. }
  split; [ exact Hunmapped | ].
  exact (Device_ctor_backend_unmapped_first (backends := SampleBackendEnum)
           BackendUndefined (-5) Hunmapped).
Defined.
